(** * Configuration requirement schema of volatility.framework.configuration

    A shallow embedding of [volatility/framework/configuration/__init__.py]:
    the requirement classes, their constructors and their [validate]
    methods, followed by the properties of the schema that the code
    satisfies.

    Layout:
    - Python values, builtin types, [isinstance], truthiness and [==];
    - exceptions, one constant per [raise] statement of the module;
    - the schema node classes as a tagged tree and [validate] on it;
    - the object store and the [__init__] methods, as store-passing code;
    - the properties. *)

From Stdlib Require Import ZArith Bool List.
From stdpp Require Import base strings gmap.
Import ListNotations.

Local Open Scope string_scope.
Local Open Scope Z_scope.

(** ** Python values *)

(** The builtin types the module tests with [isinstance]. *)
Inductive pytype := NoneType | Tbool | Tint | Tstr | Tlist | Tobject.

#[local] Set Warnings "-register-all".

(** A Python value. [VRef o] is a reference to the object at location [o]
    of the store: an instance of a user-defined class. *)
Inductive pyval :=
| VNone
| VBool (b : bool)
| VInt (z : Z)
| VStr (s : string)
| VList (items : list pyval)
| VRef (o : nat).

(** [type(v)]. *)
Definition type_of (v : pyval) : pytype :=
  match v with
  | VNone => NoneType
  | VBool _ => Tbool
  | VInt _ => Tint
  | VStr _ => Tstr
  | VList _ => Tlist
  | VRef _ => Tobject
  end.

(** [t.__name__]. *)
Definition __name__ (t : pytype) : string :=
  match t with
  | NoneType => "NoneType"
  | Tbool => "bool"
  | Tint => "int"
  | Tstr => "str"
  | Tlist => "list"
  | Tobject => "object"
  end.

Definition pytype_eqb (a b : pytype) : bool :=
  match a, b with
  | NoneType, NoneType | Tbool, Tbool | Tint, Tint
  | Tstr, Tstr | Tlist, Tlist | Tobject, Tobject => true
  | _, _ => false
  end.

(** [issubclass(a, b)] on the builtin types: every type is a subclass of
    itself and of [object], and [bool] is a subclass of [int]. *)
Definition issubclass (a b : pytype) : bool :=
  match a, b with
  | _, Tobject => true
  | Tbool, Tint => true
  | _, _ => pytype_eqb a b
  end.

(** [isinstance(v, t)]. *)
Definition isinstance (v : pyval) (t : pytype) : bool :=
  issubclass (type_of v) t.

(** [bool(v)]: the truth value [any] and [all] test. *)
Definition truthy (v : pyval) : bool :=
  match v with
  | VNone => false
  | VBool b => b
  | VInt z => negb (Z.eqb z 0)
  | VStr s => negb (String.eqb s "")
  | VList items => match items with [] => false | _ :: _ => true end
  | VRef _ => true
  end.

(** [any(l)] and [all(l)]. *)
Definition any (l : list pyval) : bool := existsb truthy l.
Definition all (l : list pyval) : bool := forallb truthy l.

(** [a == b]: numbers compare by value ([True == 1]), strings and lists
    by content. The objects of the store are instances of the classes of
    [Cls] below; none of these classes defines [__eq__], so that such an
    object is equal to itself and to nothing else. *)
Fixpoint py_eq (a b : pyval) : bool :=
  match a, b with
  | VNone, VNone => true
  | VBool x, VBool y => Bool.eqb x y
  | VBool x, VInt y | VInt y, VBool x => Z.eqb (if x then 1 else 0) y
  | VInt x, VInt y => Z.eqb x y
  | VStr x, VStr y => String.eqb x y
  | VList xs, VList ys =>
      (fix items_eq (xs ys : list pyval) : bool :=
         match xs, ys with
         | [], [] => true
         | x :: xs', y :: ys' => py_eq x y && items_eq xs' ys'
         | _, _ => false
         end) xs ys
  | VRef x, VRef y => Nat.eqb x y
  | _, _ => false
  end.

(** [v in l] for a list [l]. *)
Definition py_in (v : pyval) (l : list pyval) : bool := existsb (py_eq v) l.

(** [s or ""] for a string [s]. *)
Definition or_empty (s : string) : string :=
  if String.eqb s "" then "" else s.

(** ** Exceptions *)

Inductive exn :=
| TypeError (msg : string)
| ValueError (msg : string)
| IndexError (msg : string)
| AttributeError (msg : string).

(** The outcome of a call: a returned value or a raised exception. *)
Inductive result (A : Type) :=
| Ok (a : A)
| Raised (e : exn).
Arguments Ok {A} a.
Arguments Raised {A} e.

Definition bind {A B} (r : result A) (k : A -> result B) : result B :=
  match r with
  | Ok a => k a
  | Raised e => Raised e
  end.

(** One constant per [raise] statement of the module, named after the
    failure kind it reports. *)

(** line 17 *)
Definition TypeMismatch (name : string) (instance_type : pytype) : exn :=
  TypeError (name +:+ " input only accepts " +:+ __name__ instance_type +:+ " type").
(** line 58 *)
Definition TypeMismatch_label : exn :=
  TypeError "TranslationLayerRequirements only accepts string labels".
(** line 60 *)
Definition UnresolvedReference (value : string) : exn :=
  IndexError (or_empty value +:+ " is not a memory layer").
(** line 70 *)
Definition InvalidSchema_choices : exn :=
  TypeError "ChoiceRequirement takes a list of strings as choices".
(** line 76 *)
Definition NotInChoiceSet : exn :=
  ValueError "Value is not within the set of available choices".
(** line 83 *)
Definition InvalidSchema_nested : exn :=
  TypeError "ListRequirements cannot contain ListRequirements".
(** line 92 *)
Definition ElementInvalid : exn :=
  TypeError "At least one element in the list is not of the correct type.".
(** line 94 *)
Definition ArityViolation : exn :=
  TypeError "List option provided more or less elements than allowed.".
(** line 110 *)
Definition MissingChildResults_disjunction : exn :=
  ValueError "A Disjunction requirement cannot exist without children".
(** line 112 *)
Definition NoValidChild : exn :=
  ValueError "No valid children to support the Disjunction Requirement".
(** line 126 *)
Definition MissingChildResults_conjunction : exn :=
  ValueError "A Conjunction requirement cannot exist without children".
(** line 128 *)
Definition AnyChildInvalid : exn :=
  ValueError "An invalid child prevents the Conjunction Requirement".

(** ** The schema nodes *)

(** The external resolution context: [context.memory] is the namespace of
    the registered memory layers, read through [in] only. *)
Record Context := { memory : gset string }.

(** The attributes every schema node has. The base class
    [ConfigurationSchemaNode] is imported from
    [volatility.framework.interfaces.configuration]. *)
Record SchemaNode := {
  name : string;
  description : pyval;
  default : pyval;
  optional : bool
}.

(** An instance of one of the classes of the module, as [validate] reads
    it: the class as the constructor, the instance attributes as its
    arguments. A [TranslationLayerRequirement] carries only what its
    [__init__] stores on the instance (line 44); the combinators carry the
    requirements they were given (lines 105-106 and 121-122). *)
Inductive requirement :=
| InstanceRequirement (node : SchemaNode)
| IntRequirement (node : SchemaNode)
| StringRequirement (node : SchemaNode)
| TranslationLayerRequirement (_layer_name : pyval)
| ChoiceRequirement (node : SchemaNode) (_choices : list pyval)
| ListRequirement (node : SchemaNode) (element_type : requirement)
    (min_elements max_elements : Z)
| DisjunctionRequirement (node : SchemaNode) (requirements : list requirement)
| ConjunctionRequirement (node : SchemaNode) (requirements : list requirement).

(** The class attribute [instance_type] (lines 11, 21 and 26). *)
Definition instance_type (self : requirement) : option pytype :=
  match self with
  | InstanceRequirement _ => Some Tbool
  | IntRequirement _ => Some Tint
  | StringRequirement _ => Some Tstr
  | _ => None
  end.

(** The base-class attributes of a node, where the instance has them. *)
Definition node_of (self : requirement) : option SchemaNode :=
  match self with
  | InstanceRequirement node | IntRequirement node | StringRequirement node
  | ChoiceRequirement node _ | ListRequirement node _ _ _
  | DisjunctionRequirement node _ | ConjunctionRequirement node _ => Some node
  | TranslationLayerRequirement _ => None
  end.

(** [self.optional]. *)
Definition optional_of (self : requirement) : option bool :=
  match node_of self with
  | Some node => Some (optional node)
  | None => None
  end.

Definition set_optional (b : bool) (node : SchemaNode) : SchemaNode :=
  {| name := name node; description := description node;
     default := default node; optional := b |}.

(** The same node constructed with [optional = b]. *)
Definition with_optional (b : bool) (self : requirement) : requirement :=
  match self with
  | InstanceRequirement node => InstanceRequirement (set_optional b node)
  | IntRequirement node => IntRequirement (set_optional b node)
  | StringRequirement node => StringRequirement (set_optional b node)
  | TranslationLayerRequirement l => TranslationLayerRequirement l
  | ChoiceRequirement node c => ChoiceRequirement (set_optional b node) c
  | ListRequirement node e lo hi => ListRequirement (set_optional b node) e lo hi
  | DisjunctionRequirement node rs => DisjunctionRequirement (set_optional b node) rs
  | ConjunctionRequirement node rs => ConjunctionRequirement (set_optional b node) rs
  end.

(** Modelled from the spec: [_type_check] is inherited from
    [ConfigurationSchemaNode], whose module is not part of the sources.
    The source fixes how it is used: line 84 stores what it returns and
    line 96 calls [validate] on that, line 90 calls it for its check
    alone. It gives its first argument back when that value is of the
    expected kind and fails with a type mismatch otherwise. The kinds
    are those of the spec, which keeps them apart, boolean and integer
    included. *)
Definition TypeMismatch_check (expected : pytype) (value : pyval) : exn :=
  TypeError ("expected " +:+ __name__ expected +:+ ", not "
             +:+ __name__ (type_of value)).

Definition _type_check (value : pyval) (valid_type : pytype) : result pyval :=
  if pytype_eqb (type_of value) valid_type then Ok value
  else Raised (TypeMismatch_check valid_type value).

(** The kind of value a requirement declares: the [instance_type] of a
    scalar, a string for a choice and for a layer name, a list for a
    list requirement; a combinator has no value type of its own. *)
Definition declared_kind (r : requirement) : option pytype :=
  match r with
  | InstanceRequirement _ => Some Tbool
  | IntRequirement _ => Some Tint
  | StringRequirement _ => Some Tstr
  | TranslationLayerRequirement _ => Some Tstr
  | ChoiceRequirement _ _ => Some Tstr
  | ListRequirement _ _ _ _ => Some Tlist
  | DisjunctionRequirement _ _ | ConjunctionRequirement _ _ => None
  end.

(** Modelled from the spec: the same [_type_check], called with the
    element requirement (line 91). The expected kind is the one that
    requirement declares; a requirement that declares none lets every
    element through. *)
Definition _type_check_element (element : pyval) (element_type : requirement)
    : result pyval :=
  match declared_kind element_type with
  | Some kind => _type_check element kind
  | None => Ok element
  end.

(** [[f(element) for element in value]]: the list of the values [f]
    returns, or the first exception it raises. *)
Fixpoint comprehension (f : pyval -> result pyval) (value : list pyval)
    : result (list pyval) :=
  match value with
  | [] => Ok []
  | element :: rest =>
      bind (f element) (fun checked =>
      bind (comprehension f rest) (fun others => Ok (checked :: others)))
  end.

(** [len(value)]. *)
Definition len (items : list pyval) : Z := Z.of_nat (List.length items).

(** [InstanceRequirement.validate] (lines 13-17), inherited by
    [IntRequirement] and [StringRequirement]. *)
Definition InstanceRequirement_validate (self_name : string) (self_instance_type : pytype)
    (value : pyval) (_context : Context) (valid_children : option (list pyval))
    : result unit :=
  if negb (isinstance value self_instance_type) then
    Raised (TypeMismatch self_name self_instance_type)
  else Ok tt.

(** [TranslationLayerRequirement.validate] (lines 55-60). Past line 57
    the value is a string, the last branch is never taken. *)
Definition TranslationLayerRequirement_validate
    (value : pyval) (context : Context) (valid_children : option (list pyval))
    : result unit :=
  if negb (isinstance value Tstr) then Raised TypeMismatch_label
  else match value with
       | VStr s =>
           if negb (bool_decide (s ∈ memory context)) then
             Raised (UnresolvedReference s)
           else Ok tt
       | _ => Raised TypeMismatch_label
       end.

(** [ChoiceRequirement.validate] (lines 73-76). *)
Definition ChoiceRequirement_validate (self__choices : list pyval)
    (value : pyval) (context : Context) (valid_children : option (list pyval))
    : result unit :=
  if negb (py_in value self__choices) then Raised NotInChoiceSet else Ok tt.

(** [DisjunctionRequirement.validate] (lines 108-112). *)
Definition DisjunctionRequirement_validate
    (value : pyval) (context : Context) (valid_children : option (list pyval))
    : result unit :=
  match valid_children with
  | None => Raised MissingChildResults_disjunction
  | Some results =>
      if negb (any results) then Raised NoValidChild else Ok tt
  end.

(** [ConjunctionRequirement.validate] (lines 124-128). *)
Definition ConjunctionRequirement_validate
    (value : pyval) (context : Context) (valid_children : option (list pyval))
    : result unit :=
  match valid_children with
  | None => Raised MissingChildResults_conjunction
  | Some results =>
      if negb (all results) then Raised AnyChildInvalid else Ok tt
  end.

(** [for element in value: check(element)]: stops at the first exception. *)
Fixpoint for_each (check : pyval -> result unit) (value : list pyval) : result unit :=
  match value with
  | [] => Ok tt
  | element :: rest => bind (check element) (fun _ => for_each check rest)
  end.

(** [self.validate(value, context, valid_children)], dispatched on the
    class of [self]. The [ListRequirement] case is lines 88-96: past
    line 90 the value is a list, the last branch of the inner [match] is
    never taken. Line 91 takes [all] over the values [_type_check]
    returns, that is over the truth values of the elements themselves. *)
Fixpoint validate (self : requirement) (value : pyval) (context : Context)
    (valid_children : option (list pyval)) {struct self} : result unit :=
  match self with
  | InstanceRequirement node =>
      InstanceRequirement_validate (name node) Tbool value context valid_children
  | IntRequirement node =>
      InstanceRequirement_validate (name node) Tint value context valid_children
  | StringRequirement node =>
      InstanceRequirement_validate (name node) Tstr value context valid_children
  | TranslationLayerRequirement _ =>
      TranslationLayerRequirement_validate value context valid_children
  | ChoiceRequirement _ _choices =>
      ChoiceRequirement_validate _choices value context valid_children
  | ListRequirement _ element_type min_elements max_elements =>
      bind (_type_check value Tlist) (fun _ =>
      match value with
      | VList items =>
          bind (comprehension
                  (fun element => _type_check_element element element_type) items)
               (fun checked =>
          if negb (all checked)
          then Raised ElementInvalid
          else if negb ((min_elements <=? len items) && (len items <=? max_elements))
          then Raised ArityViolation
          else for_each (fun element => validate element_type element context None) items)
      | _ => Raised (TypeMismatch_check Tlist value)
      end)
  | DisjunctionRequirement _ _ =>
      DisjunctionRequirement_validate value context valid_children
  | ConjunctionRequirement _ _ =>
      ConjunctionRequirement_validate value context valid_children
  end.

(** ** The object store and the constructors *)

(** The classes of the module and the two it imports, with [Object]
    for the builtin class [object], the root of the hierarchy. *)
Module Cls.

Inductive t :=
| Object
| ConfigurationSchemaNode
| Configurable
| InstanceRequirement
| IntRequirement
| StringRequirement
| TranslationLayerRequirement
| ChoiceRequirement
| ListRequirement
| DisjunctionRequirement
| ConjunctionRequirement.

Definition eqb (a b : t) : bool :=
  match a, b with
  | Object, Object
  | ConfigurationSchemaNode, ConfigurationSchemaNode
  | Configurable, Configurable
  | InstanceRequirement, InstanceRequirement
  | IntRequirement, IntRequirement
  | StringRequirement, StringRequirement
  | TranslationLayerRequirement, TranslationLayerRequirement
  | ChoiceRequirement, ChoiceRequirement
  | ListRequirement, ListRequirement
  | DisjunctionRequirement, DisjunctionRequirement
  | ConjunctionRequirement, ConjunctionRequirement => true
  | _, _ => false
  end.

(** The class followed by its ancestors, from the [class] statements
    (lines 10, 20, 24, 29, 63, 79, 99 and 115). *)
Definition mro (c : t) : list t :=
  match c with
  | Object => [Object]
  | ConfigurationSchemaNode => [ConfigurationSchemaNode; Object]
  | Configurable => [Configurable; Object]
  | InstanceRequirement => [InstanceRequirement; ConfigurationSchemaNode; Object]
  | IntRequirement =>
      [IntRequirement; InstanceRequirement; ConfigurationSchemaNode; Object]
  | StringRequirement =>
      [StringRequirement; InstanceRequirement; ConfigurationSchemaNode; Object]
  | TranslationLayerRequirement =>
      [TranslationLayerRequirement; ConfigurationSchemaNode; Configurable; Object]
  | ChoiceRequirement => [ChoiceRequirement; ConfigurationSchemaNode; Object]
  | ListRequirement => [ListRequirement; ConfigurationSchemaNode; Object]
  | DisjunctionRequirement => [DisjunctionRequirement; ConfigurationSchemaNode; Object]
  | ConjunctionRequirement => [ConjunctionRequirement; ConfigurationSchemaNode; Object]
  end.

(** [issubclass(a, b)]. *)
Definition issubclass (a b : t) : bool := existsb (eqb b) (mro a).

Definition __name__ (c : t) : string :=
  match c with
  | Object => "object"
  | ConfigurationSchemaNode => "ConfigurationSchemaNode"
  | Configurable => "Configurable"
  | InstanceRequirement => "InstanceRequirement"
  | IntRequirement => "IntRequirement"
  | StringRequirement => "StringRequirement"
  | TranslationLayerRequirement => "TranslationLayerRequirement"
  | ChoiceRequirement => "ChoiceRequirement"
  | ListRequirement => "ListRequirement"
  | DisjunctionRequirement => "DisjunctionRequirement"
  | ConjunctionRequirement => "ConjunctionRequirement"
  end.

End Cls.

(** An object: its class and its [__dict__]. *)
Record object := {
  ob_class : Cls.t;
  ob_dict : gmap string pyval
}.

(** The store: the object at location [o] is the [o]-th entry. *)
Abbreviation store := (list object).

(** Code that reads and writes the store and may raise: the store is
    kept when an exception is raised, as every assignment made before
    the [raise] stays in place. *)
Definition M (A : Type) : Type := store -> result A * store.

Definition ret {A} (a : A) : M A := fun h => (Ok a, h).

Definition raise {A} (e : exn) : M A := fun h => (Raised e, h).

Definition mbindM {A B} (c : M A) (k : A -> M B) : M B :=
  fun h =>
    match c h with
    | (Ok a, h') => k a h'
    | (Raised e, h') => (Raised e, h')
    end.

Declare Scope py_scope.
Delimit Scope py_scope with py.
Notation "'let*' x ':=' c 'in' k" := (mbindM c (fun x => k))
  (at level 10, x name, c at level 100, k at level 200) : py_scope.
Notation "c ;; k" := (mbindM c (fun _ => k))
  (at level 100, k at level 200, right associativity) : py_scope.
Local Open Scope py_scope.

(** [Cls(...)] first creates the instance: a new object of class [cls]
    with an empty [__dict__], at the next free location. *)
Definition fresh_object (cls : Cls.t) : object :=
  {| ob_class := cls; ob_dict := ∅ |}.

Definition new (cls : Cls.t) : M pyval :=
  fun h => (Ok (VRef (List.length h)), (h ++ [fresh_object cls])%list).

(** [target.attr = v]. A value of a builtin type takes no attributes. *)
Definition no_attribute (target : pyval) (attr : string) : exn :=
  AttributeError ("'" +:+ __name__ (type_of target)
                  +:+ "' object has no attribute '" +:+ attr +:+ "'").

Definition set_attribute (ob : object) (attr : string) (v : pyval) : object :=
  {| ob_class := ob_class ob; ob_dict := <[attr := v]> (ob_dict ob) |}.

Definition setattr (target : pyval) (attr : string) (v : pyval) : M unit :=
  fun h =>
    match target with
    | VRef o =>
        match h !! o with
        | Some ob => (Ok tt, <[o := set_attribute ob attr v]> h)
        | None => (Raised (no_attribute target attr), h)
        end
    | _ => (Raised (no_attribute target attr), h)
    end.

(** The attribute [attr] in the [__dict__] of the object at [o]. *)
Definition attribute (h : store) (o : nat) (attr : string) : option pyval :=
  match h !! o with
  | Some ob => ob_dict ob !! attr
  | None => None
  end.

(** [isinstance(v, cls)] for a class of the module: false on the values
    of builtin types. *)
Definition isinstance_of (v : pyval) (cls : Cls.t) : M bool :=
  fun h =>
    match v with
    | VRef o =>
        match h !! o with
        | Some ob => (Ok (Cls.issubclass (ob_class ob) cls), h)
        | None => (Ok false, h)
        end
    | _ => (Ok false, h)
    end.

(** The arguments a subclass forwards to the base initializer as
    [*args, **kwargs]: [name, description = None, default = None,
    optional = False]. *)
Record base_args := {
  arg_name : pyval;
  arg_description : pyval;
  arg_default : pyval;
  arg_optional : pyval
}.

(** Modelled from the spec: [ConfigurationSchemaNode.__init__] is in
    [volatility.framework.interfaces.configuration], which is not part of
    the sources. It stores the name, the description, the default and the
    optionality flag on its receiver, the first argument it is given. *)
Definition ConfigurationSchemaNode___init__
    (self name description default optional : pyval) : M unit :=
  setattr self "name" name ;;
  setattr self "description" description ;;
  setattr self "default" default ;;
  setattr self "optional" optional.


(** Modelled from the spec: [_type_check] with a class (line 84) fails
    with a type mismatch when the value is not an instance of the class
    and gives the value back otherwise. *)
Definition InvalidSchema_not_a_node (cls : Cls.t) (value : pyval) : exn :=
  TypeError ("expected " +:+ Cls.__name__ cls +:+ ", not "
             +:+ __name__ (type_of value)).

Definition _type_check_class (value : pyval) (cls : Cls.t) : M pyval :=
  let* ok := isinstance_of value cls in
  if ok then ret value else raise (InvalidSchema_not_a_node cls value).


(** [ChoiceRequirement.__init__] (lines 67-71). The condition of line 69
    comes first: [or] evaluates the comprehension only when [choices] is
    a list. *)
Definition not_a_list_of_strings (choices : pyval) : bool :=
  negb (isinstance choices Tlist)
  || match choices with
     | VList items => existsb (fun choice => negb (isinstance choice Tstr)) items
     | _ => true
     end.

Definition ChoiceRequirement___init__
    (self choices : pyval) (args : base_args) : M unit :=
  ConfigurationSchemaNode___init__ self (arg_name args) (arg_description args)
    (arg_default args) (arg_optional args) ;;
  if not_a_list_of_strings choices
  then raise InvalidSchema_choices
  else setattr self "_choices" choices.

(** [ListRequirement.__init__] (lines 80-86): the parameters are
    [element_type, max_elements, min_elements], in this order. *)
Definition ListRequirement___init__
    (self element_type max_elements min_elements : pyval) (args : base_args)
    : M unit :=
  ConfigurationSchemaNode___init__ self (arg_name args) (arg_description args)
    (arg_default args) (arg_optional args) ;;
  let* nested := isinstance_of element_type Cls.ListRequirement in
  if nested then raise InvalidSchema_nested
  else
    let* checked := _type_check_class element_type Cls.ConfigurationSchemaNode in
    setattr self "element_type" checked ;;
    setattr self "min_elements" min_elements ;;
    setattr self "max_elements" max_elements.


Definition ChoiceRequirement_new (choices : pyval) (args : base_args) : M pyval :=
  let* self := new Cls.ChoiceRequirement in
  ChoiceRequirement___init__ self choices args ;;
  ret self.

Definition ListRequirement_new
    (element_type max_elements min_elements : pyval) (args : base_args) : M pyval :=
  let* self := new Cls.ListRequirement in
  ListRequirement___init__ self element_type max_elements min_elements args ;;
  ret self.

(** [IntRequirement(name)]: the class has no [__init__] of its own, the
    base initializer runs on the instance. *)
Definition IntRequirement_new (args : base_args) : M pyval :=
  let* self := new Cls.IntRequirement in
  ConfigurationSchemaNode___init__ self (arg_name args) (arg_description args)
    (arg_default args) (arg_optional args) ;;
  ret self.


(** Whether a value is a reference to an object of the store. *)
Definition is_ref (v : pyval) : bool :=
  match v with VRef _ => true | _ => false end.

(** The object the base initializer leaves behind. *)
Definition initialized (ob : object) (name description default optional : pyval) : object :=
  set_attribute
    (set_attribute
       (set_attribute (set_attribute ob "name" name) "description" description)
       "default" default)
    "optional" optional.

(** The instance a class call leaves in the store once the base
    initializer has run on it with [args]. *)
Definition initialized_instance (cls : Cls.t) (args : base_args) : object :=
  initialized (fresh_object cls) (arg_name args) (arg_description args)
    (arg_default args) (arg_optional args).

(** The element is of the kind the element requirement declares: the
    condition under which [_type_check_element] gives the element back. *)
Definition of_declared_kind (element : pyval) (element_type : requirement) : Prop :=
  forall kind, declared_kind element_type = Some kind -> type_of element = kind.

(** Whether [validate] on [self] reaches line 59, the only place where
    the context is read: [self] is a layer requirement, or a list
    requirement whose elements are validated by one (line 96). *)
Fixpoint consults_context (self : requirement) : bool :=
  match self with
  | TranslationLayerRequirement _ => true
  | ListRequirement _ element_type _ _ => consults_context element_type
  | _ => false
  end.

(** The classes of the module that are combinators. *)
Definition is_combinator (self : requirement) : bool :=
  match self with
  | DisjunctionRequirement _ _ | ConjunctionRequirement _ _ => true
  | _ => false
  end.

(** ** Sample schema and context *)

(** The resolution context whose namespace is ["layer1"] and ["layer2"]. *)
Definition two_layers : Context := {| memory := {[ "layer1"; "layer2" ]} |}.

(** The attributes [name = nm, optional = opt], the rest left at [None]. *)
Definition node_named (nm : string) (opt : bool) : SchemaNode :=
  {| name := nm; description := VNone; default := VNone; optional := opt |}.

(** [IntRequirement(name = "depth")] and
    [ChoiceRequirement(name = "mode", choices = ["fast", "full"])]. *)
Definition depth : requirement := IntRequirement (node_named "depth" false).
Definition mode : requirement :=
  ChoiceRequirement (node_named "mode" false) [VStr "fast"; VStr "full"].

(** A list of at most one [mode]: [ListRequirement(mode, 1, 0, name = "modes")]. *)
Definition modes : requirement :=
  ListRequirement (node_named "modes" false) mode 0 1.

(** A list of one to three [depth]s, and a list of disjunctions. *)
Definition depths : requirement :=
  ListRequirement (node_named "depths" false) depth 1 3.
Definition alternatives : requirement :=
  ListRequirement (node_named "alternatives" false)
    (DisjunctionRequirement (node_named "either" false) [depth; mode]) 0 3.

(** A list requirement with inverted bounds: at least 5, at most 2. *)
Definition inverted : requirement :=
  ListRequirement (node_named "depths" false) depth 5 2.

(** The arguments [name = nm] with the defaults for the others. *)
Definition args_named (nm : string) : base_args :=
  {| arg_name := VStr nm; arg_description := VNone;
     arg_default := VNone; arg_optional := VBool false |}.

(** The store after [IntRequirement(name = "depth")]: the instance is
    at location 0. *)
Definition depth_store : store := snd (IntRequirement_new (args_named "depth") []).


(** * Properties *)

(** ** Builtin types *)

Lemma isinstance_str (v : pyval) :
  isinstance v Tstr = true <-> exists s, v = VStr s.
Proof.
  split.
  - destruct v; simpl; try discriminate. intros _. now exists s.
  - intros [s ->]. reflexivity.
Qed.

Lemma isinstance_int (v : pyval) :
  isinstance v Tint = true <-> (exists b, v = VBool b) \/ (exists z, v = VInt z).
Proof.
  split.
  - destruct v; simpl; try discriminate; intros _; [left | right]; eauto.
  - intros [[b ->] | [z ->]]; reflexivity.
Qed.

Lemma isinstance_bool (v : pyval) :
  isinstance v Tbool = true <-> exists b, v = VBool b.
Proof.
  split.
  - destruct v; simpl; try discriminate. intros _. now exists b.
  - intros [b ->]. reflexivity.
Qed.

Lemma isinstance_type_of (v : pyval) (t : pytype) :
  type_of v = t -> isinstance v t = true.
Proof. intros <-. now destruct v. Qed.

Lemma truthy_VBool (b : bool) : truthy (VBool b) = b.
Proof. reflexivity. Qed.

Lemma any_bools (bs : list bool) : any (map VBool bs) = existsb id bs.
Proof.
  unfold any. induction bs as [| b bs IH]; simpl; [reflexivity |].
  now rewrite IH.
Qed.

Lemma all_bools (bs : list bool) : all (map VBool bs) = forallb id bs.
Proof.
  unfold all. induction bs as [| b bs IH]; simpl; [reflexivity |].
  now rewrite IH.
Qed.

(** ** Scalar requirements *)

Section Scalar.

Variables (context : Context) (valid_children : option (list pyval)).

(** The three scalar classes run the same inherited method, each with
    its own [instance_type]. *)
Lemma validate_scalar (self : requirement) (node : SchemaNode) (t : pytype)
    (value : pyval) :
  instance_type self = Some t ->
  node_of self = Some node ->
  validate self value context valid_children
  = InstanceRequirement_validate (name node) t value context valid_children.
Proof.
  destruct self; simpl; try discriminate; intros [= <-] [= <-]; reflexivity.
Qed.

Lemma InstanceRequirement_validate_ok (nm : string) (t : pytype) (value : pyval) :
  InstanceRequirement_validate nm t value context valid_children = Ok tt
  <-> isinstance value t = true.
Proof.
  unfold InstanceRequirement_validate.
  destruct (isinstance value t); simpl; split; intros H;
    try reflexivity; discriminate.
Qed.

Lemma InstanceRequirement_validate_fails (nm : string) (t : pytype) (value : pyval) :
  isinstance value t = false ->
  InstanceRequirement_validate nm t value context valid_children
  = Raised (TypeMismatch nm t).
Proof. unfold InstanceRequirement_validate. now intros ->. Qed.

End Scalar.

(** C1, as stated, fails: an integer requirement accepts the boolean
    [True], whose type is [bool] and not [int]. *)
Lemma IntRequirement_accepts_True :
  instance_type depth = Some Tint
  /\ validate depth (VBool true) two_layers None = Ok tt
  /\ type_of (VBool true) <> Tint.
Proof. split; [reflexivity | split; [reflexivity | discriminate]]. Qed.

(** C1 (amended): for a scalar requirement with instance type [t],
    [validate] succeeds exactly on the values that are instances of [t]
    in the sense of [isinstance], and raises the type error of line 17
    on every other value. A boolean is an instance of [int], so an
    integer requirement accepts every boolean; an integer is no instance
    of [bool], so a boolean requirement rejects every integer. *)
Theorem scalar_validate_iff_isinstance
    (self : requirement) (node : SchemaNode) (t : pytype)
    (value : pyval) (context : Context) (valid_children : option (list pyval)) :
  instance_type self = Some t ->
  node_of self = Some node ->
  (validate self value context valid_children = Ok tt
   <-> isinstance value t = true)
  /\ (isinstance value t = false ->
      validate self value context valid_children
      = Raised (TypeMismatch (name node) t))
  /\ (t = Tint -> forall b,
      validate self (VBool b) context valid_children = Ok tt)
  /\ (t = Tbool -> forall z,
      validate self (VInt z) context valid_children
      = Raised (TypeMismatch (name node) Tbool)).
Proof.
  intros Ht Hn. repeat split.
  - rewrite (validate_scalar _ _ _ _ _ _ Ht Hn).
    apply InstanceRequirement_validate_ok.
  - rewrite (validate_scalar _ _ _ _ _ _ Ht Hn).
    apply InstanceRequirement_validate_ok.
  - intros Hv. rewrite (validate_scalar _ _ _ _ _ _ Ht Hn).
    now apply InstanceRequirement_validate_fails.
  - intros -> b. rewrite (validate_scalar _ _ _ _ _ _ Ht Hn). reflexivity.
  - intros -> z. rewrite (validate_scalar _ _ _ _ _ _ Ht Hn). reflexivity.
Qed.

Lemma scalar_validate_iff_isinstance_witness :
  instance_type depth = Some Tint
  /\ node_of depth = Some (node_named "depth" false)
  /\ validate depth (VStr "3") two_layers None
     = Raised (TypeMismatch "depth" Tint).
Proof.
  split; [reflexivity |]. split; [reflexivity |].
  apply (scalar_validate_iff_isinstance depth (node_named "depth" false) Tint
           (VStr "3") two_layers None); reflexivity.
Defined.

(** ** Optionality *)

(** C2, as stated, fails: an integer requirement with [optional = True]
    raises the type error of line 17 on [None]. *)
Lemma optional_IntRequirement_rejects_None :
  optional_of (IntRequirement (node_named "depth" true)) = Some true
  /\ validate (IntRequirement (node_named "depth" true)) VNone two_layers None
     = Raised (TypeMismatch "depth" Tint).
Proof. split; reflexivity. Qed.

Lemma with_optional_sets (b : bool) (self : requirement) (node : SchemaNode) :
  node_of self = Some node -> optional_of (with_optional b self) = Some b.
Proof. destruct self; simpl; try discriminate; reflexivity. Qed.

(** C2 (amended): [validate] does not read the [optional] attribute. A
    node gives every value, an absent one ([None]) included, the outcome
    the same node gives with the other setting of [optional]; a scalar
    requirement and a layer requirement raise on [None] when [optional]
    is true as when it is false. *)
Theorem validate_ignores_optional
    (self : requirement) (value : pyval) (context : Context)
    (valid_children : option (list pyval)) :
  (forall b, validate (with_optional b self) value context valid_children
             = validate self value context valid_children)
  /\ (forall t node, instance_type self = Some t -> node_of self = Some node ->
      validate (with_optional true self) VNone context valid_children
      = Raised (TypeMismatch (name node) t))
  /\ (forall l, self = TranslationLayerRequirement l ->
      validate (with_optional true self) VNone context valid_children
      = Raised TypeMismatch_label).
Proof.
  repeat split.
  - intros b. destruct self; reflexivity.
  - intros t node Ht Hn.
    destruct self; simpl in *; try discriminate;
      injection Ht as <-; injection Hn as <-; reflexivity.
  - intros l ->. reflexivity.
Qed.

(** ** Combinators *)

Lemma DisjunctionRequirement_validate_results
    (value : pyval) (context : Context) (results : list pyval) :
  DisjunctionRequirement_validate value context (Some results)
  = if any results then Ok tt else Raised NoValidChild.
Proof.
  unfold DisjunctionRequirement_validate. now destruct (any results).
Qed.

Lemma ConjunctionRequirement_validate_results
    (value : pyval) (context : Context) (results : list pyval) :
  ConjunctionRequirement_validate value context (Some results)
  = if all results then Ok tt else Raised AnyChildInvalid.
Proof.
  unfold ConjunctionRequirement_validate. now destruct (all results).
Qed.

Lemma forallb_id_false (bs : list bool) :
  forallb id bs = false <-> In false bs.
Proof.
  induction bs as [| b bs IH]; simpl.
  - split; [discriminate | tauto].
  - destruct b; simpl.
    + rewrite IH. split; [tauto | intros [H | H]; [discriminate | exact H]].
    + split; [now left | reflexivity].
Qed.

Lemma forallb_id_true (bs : list bool) :
  forallb id bs = true <-> (forall b, In b bs -> b = true).
Proof.
  rewrite forallb_forall. unfold id. tauto.
Qed.

(** C6, as stated, fails: with the empty sequence the disjunction raises
    the error of line 112 (no valid child), not the one of line 110
    (missing child results). *)
Lemma Disjunction_empty_results_NoValidChild :
  validate (DisjunctionRequirement (node_named "any" false) [depth; mode])
    VNone two_layers (Some [])
  = Raised NoValidChild
  /\ NoValidChild <> MissingChildResults_disjunction.
Proof. split; [reflexivity | discriminate]. Qed.

(** C6 (amended): a disjunction fails with NoValidChild on the child
    results [[False, False]], succeeds on [[False, True]], fails with
    MissingChildResults when the child results are absent ([None]), and
    fails with NoValidChild on the empty sequence. *)
Theorem Disjunction_validate_cases
    (node : SchemaNode) (requirements : list requirement)
    (value : pyval) (context : Context) :
  let self := DisjunctionRequirement node requirements in
  validate self value context (Some [VBool false; VBool false])
  = Raised NoValidChild
  /\ validate self value context (Some [VBool false; VBool true]) = Ok tt
  /\ validate self value context None = Raised MissingChildResults_disjunction
  /\ validate self value context (Some []) = Raised NoValidChild.
Proof. repeat split. Qed.

(** C7: a conjunction fails with MissingChildResults when the child
    results are absent, fails with AnyChildInvalid when some entry of the
    child results is false, and succeeds exactly when every entry is
    true. *)
Theorem Conjunction_validate_cases
    (node : SchemaNode) (requirements : list requirement)
    (value : pyval) (context : Context) (results : list bool) :
  let self := ConjunctionRequirement node requirements in
  validate self value context None = Raised MissingChildResults_conjunction
  /\ (In false results ->
      validate self value context (Some (map VBool results))
      = Raised AnyChildInvalid)
  /\ (validate self value context (Some (map VBool results)) = Ok tt
      <-> forall b, In b results -> b = true).
Proof.
  intros self. subst self. cbn [validate].
  rewrite ConjunctionRequirement_validate_results, all_bools.
  split; [reflexivity |]. split.
  - intros H. apply forallb_id_false in H. now rewrite H.
  - rewrite <- forallb_id_true.
    destruct (forallb id results); split; intros H;
      try reflexivity; discriminate.
Qed.

(** C10: on the empty sequence of child results a conjunction succeeds,
    while a disjunction fails; the conjunction does not treat the empty
    sequence as it treats absent child results. *)
Theorem Conjunction_empty_results_succeeds
    (node node' : SchemaNode) (requirements requirements' : list requirement)
    (value : pyval) (context : Context) :
  validate (ConjunctionRequirement node requirements) value context (Some [])
  = Ok tt
  /\ validate (DisjunctionRequirement node' requirements') value context (Some [])
     = Raised NoValidChild
  /\ validate (ConjunctionRequirement node requirements) value context None
     = Raised MissingChildResults_conjunction
  /\ validate (ConjunctionRequirement node requirements) value context (Some [])
     <> validate (ConjunctionRequirement node requirements) value context None.
Proof. repeat split. discriminate. Qed.

(** ** Layer requirements *)

Lemma TranslationLayerRequirement_validate_str
    (s : string) (context : Context) (valid_children : option (list pyval)) :
  TranslationLayerRequirement_validate (VStr s) context valid_children
  = if bool_decide (s ∈ memory context) then Ok tt
    else Raised (UnresolvedReference s).
Proof.
  unfold TranslationLayerRequirement_validate. simpl.
  now destruct (bool_decide (s ∈ memory context)).
Qed.

(** C8: a layer requirement fails with the type mismatch of line 58 on
    a value that is not a string, fails with UnresolvedReference on a
    string that is not in the namespace of the context, and succeeds on
    a string that is. With the namespace ["layer1", "layer2"]:
    ["layer1"] succeeds, ["layer9"] is unresolved, [42] is a type
    mismatch. *)
Theorem TranslationLayerRequirement_validate_cases
    (layer_name value : pyval) (context : Context)
    (valid_children : option (list pyval)) :
  let self := TranslationLayerRequirement layer_name in
  (isinstance value Tstr = false ->
   validate self value context valid_children = Raised TypeMismatch_label)
  /\ (forall s, value = VStr s -> s ∉ memory context ->
      validate self value context valid_children
      = Raised (UnresolvedReference s))
  /\ (forall s, value = VStr s -> s ∈ memory context ->
      validate self value context valid_children = Ok tt)
  /\ validate self (VStr "layer1") two_layers valid_children = Ok tt
  /\ validate self (VStr "layer9") two_layers valid_children
     = Raised (UnresolvedReference "layer9")
  /\ validate self (VInt 42) two_layers valid_children
     = Raised TypeMismatch_label.
Proof.
  intros self. subst self. cbn [validate].
  split; [| split; [| split; [| repeat split]]].
  - intros H. unfold TranslationLayerRequirement_validate. now rewrite H.
  - intros s -> H. rewrite TranslationLayerRequirement_validate_str.
    now rewrite bool_decide_eq_false_2.
  - intros s -> H. rewrite TranslationLayerRequirement_validate_str.
    now rewrite bool_decide_eq_true_2.
Qed.

(** ** List requirements *)

Lemma pytype_eqb_eq (a b : pytype) : pytype_eqb a b = true <-> a = b.
Proof. destruct a, b; simpl; split; intros H; try reflexivity; discriminate. Qed.

(** What [_type_check] returns is its first argument. *)
Lemma _type_check_cases (value : pyval) (kind : pytype) :
  (type_of value = kind /\ _type_check value kind = Ok value)
  \/ (type_of value <> kind
      /\ _type_check value kind = Raised (TypeMismatch_check kind value)).
Proof.
  unfold _type_check. destruct (pytype_eqb (type_of value) kind) eqn:E.
  - left. split; [now apply pytype_eqb_eq | reflexivity].
  - right. split; [| reflexivity]. intros H. apply pytype_eqb_eq in H. congruence.
Qed.

Lemma _type_check_element_cases (element : pyval) (element_type : requirement) :
  (of_declared_kind element element_type
   /\ _type_check_element element element_type = Ok element)
  \/ (exists kind, declared_kind element_type = Some kind
                   /\ type_of element <> kind
                   /\ _type_check_element element element_type
                      = Raised (TypeMismatch_check kind element)).
Proof.
  unfold _type_check_element, of_declared_kind.
  destruct (declared_kind element_type) as [kind |].
  - destruct (_type_check_cases element kind) as [[Hk ->] | [Hk ->]].
    + left. split; [now intros k [= <-] | reflexivity].
    + right. now exists kind.
  - left. split; [discriminate | reflexivity].
Qed.

(** Line 91: the comprehension gives the elements back, or raises the
    type mismatch of the first element that is not of the declared
    kind. *)
Lemma comprehension_type_check (element_type : requirement) (items : list pyval) :
  ((forall element, In element items -> of_declared_kind element element_type)
   /\ comprehension (fun element => _type_check_element element element_type) items
      = Ok items)
  \/ (exists element kind,
        In element items
        /\ declared_kind element_type = Some kind
        /\ type_of element <> kind
        /\ comprehension (fun element => _type_check_element element element_type) items
           = Raised (TypeMismatch_check kind element)).
Proof.
  induction items as [| x items IH]; simpl.
  - left. split; [intros element [] | reflexivity].
  - destruct (_type_check_element_cases x element_type)
      as [[Hx ->] | (kind & Hd & Hne & ->)]; simpl.
    + destruct IH as [[Hall ->] | (element & kind & Hin & Hd & Hne & ->)]; simpl.
      * left. split; [| reflexivity].
        intros element [<- | Hin]; [exact Hx | now apply Hall].
      * right. exists element, kind. repeat split; try assumption. now right.
    + right. exists x, kind. repeat split; try assumption. now left.
Qed.

Lemma all_false (items : list pyval) :
  all items = false <-> exists element, In element items /\ truthy element = false.
Proof.
  unfold all. induction items as [| x items IH]; simpl.
  - split; [discriminate | intros (element & [] & _)].
  - destruct (truthy x) eqn:E; simpl.
    + rewrite IH. split.
      * intros (element & Hin & He). exists element. split; [now right | exact He].
      * intros (element & [<- | Hin] & He); [congruence | now exists element].
    + split; [| reflexivity]. intros _. exists x. split; [now left | exact E].
Qed.

Lemma all_truthy (items : list pyval) :
  all items = true <-> forall element, In element items -> truthy element = true.
Proof. unfold all. apply forallb_forall. Qed.

Lemma for_each_ok (check : pyval -> result unit) (items : list pyval) :
  for_each check items = Ok tt <-> forall x, In x items -> check x = Ok tt.
Proof.
  induction items as [| x items IH]; simpl.
  - split; [intros _ y [] | reflexivity].
  - destruct (check x) as [[] | e] eqn:E; simpl.
    + rewrite IH. split.
      * intros H y [<- | Hy]; [exact E | now apply H].
      * intros H y Hy. apply H. now right.
    + split; [discriminate |]. intros H.
      specialize (H x (or_introl eq_refl)). congruence.
Qed.

Lemma for_each_ext (check check' : pyval -> result unit) (items : list pyval) :
  (forall x, In x items -> check x = check' x) ->
  for_each check items = for_each check' items.
Proof.
  induction items as [| x items IH]; simpl; [reflexivity |].
  intros H. rewrite (H x (or_introl eq_refl)).
  destruct (check' x); simpl; [| reflexivity].
  apply IH. intros y Hy. apply H. now right.
Qed.


Lemma for_each_first_failure (check : pyval -> result unit)
    (before after : list pyval) (element : pyval) (e : exn) :
  (forall x, In x before -> check x = Ok tt) ->
  check element = Raised e ->
  for_each check (before ++ element :: after)%list = Raised e.
Proof.
  intros Hbefore He. induction before as [| x before IH]; simpl.
  - now rewrite He.
  - rewrite (Hbefore x (or_introl eq_refl)). simpl.
    apply IH. intros y Hy. apply Hbefore. now right.
Qed.

Lemma bounds_check (lo hi n : Z) :
  (lo <=? n) && (n <=? hi) = true <-> lo <= n <= hi.
Proof. rewrite andb_true_iff, !Z.leb_le. reflexivity. Qed.

Lemma bounds_check_false (lo hi n : Z) :
  (lo <=? n) && (n <=? hi) = false <-> n < lo \/ hi < n.
Proof.
  rewrite andb_false_iff, !Z.leb_gt. tauto.
Qed.

Section ListValidate.

Variables (node : SchemaNode) (element_type : requirement).
Variables (min_elements max_elements : Z).
Variables (context : Context) (valid_children : option (list pyval)).

Let self := ListRequirement node element_type min_elements max_elements.

(** Lines 91-96 on a list value. *)
Lemma validate_list (items : list pyval) :
  validate self (VList items) context valid_children
  = bind (comprehension
            (fun element => _type_check_element element element_type) items)
      (fun checked =>
         if negb (all checked)
         then Raised ElementInvalid
         else if negb ((min_elements <=? len items) && (len items <=? max_elements))
         then Raised ArityViolation
         else for_each (fun element => validate element_type element context None) items).
Proof. reflexivity. Qed.

(** With every element of the declared kind, the three tests of lines
    91-96 in their order. *)
Lemma validate_list_checked (items : list pyval) :
  (forall element, In element items -> of_declared_kind element element_type) ->
  validate self (VList items) context valid_children
  = if negb (all items)
    then Raised ElementInvalid
    else if negb ((min_elements <=? len items) && (len items <=? max_elements))
    then Raised ArityViolation
    else for_each (fun element => validate element_type element context None) items.
Proof.
  intros H. rewrite validate_list.
  destruct (comprehension_type_check element_type items)
    as [[_ ->] | (element & kind & Hin & Hd & Hne & _)].
  - reflexivity.
  - elim Hne. exact (H element Hin kind Hd).
Qed.

(** A value that is not a list is refused before any other check. *)
Lemma validate_not_a_list (value : pyval) :
  isinstance value Tlist = false ->
  validate self value context valid_children
  = Raised (TypeMismatch_check Tlist value).
Proof.
  intros H. subst self. cbn [validate]. unfold _type_check.
  destruct value; try discriminate; reflexivity.
Qed.

End ListValidate.




(** ** The store *)

Lemma setattr_ref (h : store) (o : nat) (ob : object) (attr : string) (v : pyval) :
  h !! o = Some ob ->
  setattr (VRef o) attr v h = (Ok tt, <[o := set_attribute ob attr v]> h).
Proof. unfold setattr. now intros ->. Qed.


Lemma lookup_updated (h : store) (o : nat) (ob ob' : object) :
  h !! o = Some ob -> <[o := ob']> h !! o = Some ob'.
Proof. intros H. apply list_lookup_insert_eq. exact (lookup_lt_Some _ _ _ H). Qed.

Lemma attribute_updated (h : store) (o : nat) (ob ob' : object) (attr : string) :
  h !! o = Some ob -> attribute (<[o := ob']> h) o attr = ob_dict ob' !! attr.
Proof. intros H. unfold attribute. now rewrite (lookup_updated _ _ _ _ H). Qed.


(** The object a class call creates sits at the end of the store. *)
Lemma lookup_new (h : store) (cls : Cls.t) :
  (h ++ [fresh_object cls])%list !! List.length h = Some (fresh_object cls).
Proof. now apply list_lookup_middle. Qed.

Lemma lookup_old (h : store) (o : nat) (ob new_ob : object) :
  h !! o = Some ob -> (h ++ [new_ob])%list !! o = Some ob.
Proof. apply lookup_app_l_Some. Qed.

Lemma base_init_ref (h : store) (o : nat) (ob : object)
    (name description default optional : pyval) :
  h !! o = Some ob ->
  ConfigurationSchemaNode___init__ (VRef o) name description default optional h
  = (Ok tt, <[o := initialized ob name description default optional]> h).
Proof.
  intros H. unfold ConfigurationSchemaNode___init__, mbindM, initialized.
  rewrite (setattr_ref _ _ _ _ _ H).
  rewrite (setattr_ref _ _ _ _ _ (lookup_updated _ _ _ _ H)), list_insert_insert_eq.
  rewrite (setattr_ref _ _ _ _ _ (lookup_updated _ _ _ _ H)), list_insert_insert_eq.
  rewrite (setattr_ref _ _ _ _ _ (lookup_updated _ _ _ _ H)), list_insert_insert_eq.
  reflexivity.
Qed.


(** ** Constructing a choice requirement *)

Lemma ChoiceRequirement_new_eq (choices : pyval) (args : base_args) (h : store) :
  ChoiceRequirement_new choices args h
  = let self := List.length h in
    let ob := initialized_instance Cls.ChoiceRequirement args in
    let h0 := (h ++ [fresh_object Cls.ChoiceRequirement])%list in
    if not_a_list_of_strings choices
    then (Raised InvalidSchema_choices, <[self := ob]> h0)
    else (Ok (VRef self), <[self := set_attribute ob "_choices" choices]> h0).
Proof.
  unfold ChoiceRequirement_new, ChoiceRequirement___init__, new, mbindM.
  rewrite (base_init_ref _ _ _ _ _ _ _ (lookup_new h Cls.ChoiceRequirement)).
  cbv zeta. destruct (not_a_list_of_strings choices); [reflexivity |].
  rewrite (setattr_ref _ _ _ _ _
             (lookup_updated _ _ _ _ (lookup_new h Cls.ChoiceRequirement))).
  rewrite list_insert_insert_eq. reflexivity.
Qed.

Lemma not_a_list_of_strings_false (items : list pyval) :
  not_a_list_of_strings (VList items) = false
  <-> forall choice, In choice items -> isinstance choice Tstr = true.
Proof.
  unfold not_a_list_of_strings. simpl. split.
  - intros H choice Hin.
    destruct (isinstance choice Tstr) eqn:E; [reflexivity |].
    assert (existsb (fun c => negb (isinstance c Tstr)) items = true) as Hex.
    { apply existsb_exists. exists choice. now rewrite E. }
    congruence.
  - intros H. destruct (existsb _ items) eqn:E; [| reflexivity].
    apply existsb_exists in E as (choice & Hin & Hc).
    rewrite (H choice Hin) in Hc. discriminate.
Qed.

(** C3, as stated, fails: constructing a choice requirement with
    [choices = []] returns the instance, with [_choices] set to the empty
    list. *)
Lemma ChoiceRequirement_new_empty_choices :
  fst (ChoiceRequirement_new (VList []) (args_named "mode") []) = Ok (VRef 0%nat)
  /\ attribute (snd (ChoiceRequirement_new (VList []) (args_named "mode") []))
       0 "_choices" = Some (VList []).
Proof. split; reflexivity. Qed.

(** C3 (amended): constructing a choice requirement fails with
    InvalidSchema (the type error of line 70) whenever [choices] is not a
    list and whenever it is a list with an element that is not a string;
    with a list of strings, the empty list included, construction
    returns the instance and stores the list as [_choices]. *)
Theorem ChoiceRequirement_new_cases
    (choices : pyval) (args : base_args) (h : store) :
  (isinstance choices Tlist = false ->
   fst (ChoiceRequirement_new choices args h) = Raised InvalidSchema_choices)
  /\ (forall items choice,
      choices = VList items -> In choice items ->
      isinstance choice Tstr = false ->
      fst (ChoiceRequirement_new choices args h) = Raised InvalidSchema_choices)
  /\ (forall items,
      choices = VList items ->
      (forall choice, In choice items -> isinstance choice Tstr = true) ->
      fst (ChoiceRequirement_new choices args h) = Ok (VRef (List.length h))
      /\ attribute (snd (ChoiceRequirement_new choices args h))
           (List.length h) "_choices" = Some choices)
  /\ (choices = VList [] ->
      fst (ChoiceRequirement_new choices args h) = Ok (VRef (List.length h))).
Proof.
  rewrite ChoiceRequirement_new_eq. cbv zeta.
  split; [| split; [| split]].
  - intros H. unfold not_a_list_of_strings. now rewrite H.
  - intros items choice -> Hin Hc.
    destruct (not_a_list_of_strings (VList items)) eqn:E; [reflexivity |].
    rewrite not_a_list_of_strings_false in E.
    rewrite (E choice Hin) in Hc. discriminate.
  - intros items -> H. apply not_a_list_of_strings_false in H. rewrite H.
    split; [reflexivity |]. simpl.
    rewrite (attribute_updated _ _ _ _ _ (lookup_new h Cls.ChoiceRequirement)).
    apply lookup_insert_eq.
  - intros ->. reflexivity.
Qed.

(** ** Constructing a list requirement *)

Section ListNew.

Variables (max_elements min_elements : pyval) (args : base_args) (h : store).

Let self := List.length h.
Let ob := initialized_instance Cls.ListRequirement args.
Let h0 := (h ++ [fresh_object Cls.ListRequirement])%list.

Lemma lookup_element (e : nat) (element : object) :
  h !! e = Some element -> <[self := ob]> h0 !! e = Some element.
Proof.
  intros H. rewrite list_lookup_insert_ne.
  - now apply lookup_old.
  - subst self. apply lookup_lt_Some in H. lia.
Qed.

Lemma ListRequirement_new_ref (e : nat) (element : object) :
  h !! e = Some element ->
  ListRequirement_new (VRef e) max_elements min_elements args h
  = if Cls.issubclass (ob_class element) Cls.ListRequirement
    then (Raised InvalidSchema_nested, <[self := ob]> h0)
    else if Cls.issubclass (ob_class element) Cls.ConfigurationSchemaNode
    then (Ok (VRef self),
          <[self := set_attribute
                      (set_attribute (set_attribute ob "element_type" (VRef e))
                         "min_elements" min_elements)
                      "max_elements" max_elements]> h0)
    else (Raised (InvalidSchema_not_a_node Cls.ConfigurationSchemaNode (VRef e)),
          <[self := ob]> h0).
Proof.
  intros H.
  unfold ListRequirement_new, ListRequirement___init__, new, mbindM.
  rewrite (base_init_ref _ _ _ _ _ _ _ (lookup_new h Cls.ListRequirement)).
  fold self h0 (initialized_instance Cls.ListRequirement args). fold ob.
  unfold _type_check_class, isinstance_of, mbindM.
  rewrite (lookup_element _ _ H).
  destruct (Cls.issubclass (ob_class element) Cls.ListRequirement); [reflexivity |].
  rewrite (lookup_element _ _ H).
  destruct (Cls.issubclass (ob_class element) Cls.ConfigurationSchemaNode);
    [| reflexivity].
  unfold ret.
  assert (h0 !! self = Some (fresh_object Cls.ListRequirement)) as Hnew
    by apply lookup_new.
  rewrite (setattr_ref _ _ _ _ _ (lookup_updated _ _ _ _ Hnew)), list_insert_insert_eq.
  rewrite (setattr_ref _ _ _ _ _ (lookup_updated _ _ _ _ Hnew)), list_insert_insert_eq.
  rewrite (setattr_ref _ _ _ _ _ (lookup_updated _ _ _ _ Hnew)), list_insert_insert_eq.
  reflexivity.
Qed.

(** A value of a builtin type is no schema node. *)
Lemma ListRequirement_new_builtin (element_type : pyval) :
  is_ref element_type = false ->
  ListRequirement_new element_type max_elements min_elements args h
  = (Raised (InvalidSchema_not_a_node Cls.ConfigurationSchemaNode element_type),
     <[self := ob]> h0).
Proof.
  intros H.
  unfold ListRequirement_new, ListRequirement___init__, new, mbindM.
  rewrite (base_init_ref _ _ _ _ _ _ _ (lookup_new h Cls.ListRequirement)).
  destruct element_type; try discriminate; reflexivity.
Qed.

End ListNew.

(** C4, as stated, fails: with an integer requirement as the element
    requirement, [max_elements = 2] and [min_elements = 5], construction
    returns the instance and stores the inverted bounds. *)
Lemma ListRequirement_new_inverted_bounds :
  fst (ListRequirement_new (VRef 0) (VInt 2) (VInt 5) (args_named "depths") depth_store)
  = Ok (VRef 1%nat)
  /\ attribute
       (snd (ListRequirement_new (VRef 0) (VInt 2) (VInt 5) (args_named "depths")
               depth_store))
       1 "min_elements" = Some (VInt 5)
  /\ attribute
       (snd (ListRequirement_new (VRef 0) (VInt 2) (VInt 5) (args_named "depths")
               depth_store))
       1 "max_elements" = Some (VInt 2).
Proof. repeat split. Qed.

(** C4 (amended): constructing a list requirement whose element
    requirement is itself a list requirement fails with InvalidSchema (the
    type error of line 83), at construction and whatever the bounds.
    The bounds are not compared: with any other schema node as the
    element requirement, construction returns the instance for every
    [min_elements] and [max_elements], and stores them as given. *)
Theorem ListRequirement_new_cases
    (e : nat) (element : object) (max_elements min_elements : pyval)
    (args : base_args) (h : store) :
  h !! e = Some element ->
  (Cls.issubclass (ob_class element) Cls.ListRequirement = true ->
   fst (ListRequirement_new (VRef e) max_elements min_elements args h)
   = Raised InvalidSchema_nested)
  /\ (Cls.issubclass (ob_class element) Cls.ListRequirement = false ->
      Cls.issubclass (ob_class element) Cls.ConfigurationSchemaNode = true ->
      fst (ListRequirement_new (VRef e) max_elements min_elements args h)
      = Ok (VRef (List.length h))
      /\ attribute
           (snd (ListRequirement_new (VRef e) max_elements min_elements args h))
           (List.length h) "min_elements" = Some min_elements
      /\ attribute
           (snd (ListRequirement_new (VRef e) max_elements min_elements args h))
           (List.length h) "max_elements" = Some max_elements).
Proof.
  intros H. rewrite (ListRequirement_new_ref _ _ _ _ _ _ H). split.
  - now intros ->.
  - intros -> ->. simpl. split; [reflexivity |].
    rewrite !(attribute_updated _ _ _ _ _ (lookup_new h Cls.ListRequirement)).
    simpl. split.
    + rewrite lookup_insert_ne by discriminate. apply lookup_insert_eq.
    + apply lookup_insert_eq.
Qed.

Lemma ListRequirement_new_cases_witness :
  depth_store !! 0%nat = Some (initialized_instance Cls.IntRequirement (args_named "depth"))
  /\ fst (ListRequirement_new (VRef 0) (VInt 2) (VInt 5) (args_named "depths")
            depth_store)
     = Ok (VRef 1%nat).
Proof.
  split; [reflexivity |].
  apply (ListRequirement_new_cases 0
           (initialized_instance Cls.IntRequirement (args_named "depth"))
           (VInt 2) (VInt 5) (args_named "depths") depth_store eq_refl);
    reflexivity.
Defined.

(** ** Constructing a layer requirement *)

Section LayerNew.

Variables (description default optional layer_name : pyval) (h : store).

Let self := List.length h.
Let h0 := (h ++ [fresh_object Cls.TranslationLayerRequirement])%list.



End LayerNew.



(** * Further properties *)

(** ** Combinators on arbitrary child results *)

Lemma any_true (results : list pyval) :
  any results = true <-> exists r, In r results /\ truthy r = true.
Proof. unfold any. apply existsb_exists. Qed.

Lemma all_true (results : list pyval) :
  all results = true <-> forall r, In r results -> truthy r = true.
Proof. unfold all. apply forallb_forall. Qed.

Lemma Disjunction_ok_iff_any (value : pyval) (context : Context) (results : list pyval) :
  DisjunctionRequirement_validate value context (Some results) = Ok tt
  <-> any results = true.
Proof.
  rewrite DisjunctionRequirement_validate_results.
  destruct (any results); split; intros H; try reflexivity; discriminate.
Qed.

Lemma Conjunction_ok_iff_all (value : pyval) (context : Context) (results : list pyval) :
  ConjunctionRequirement_validate value context (Some results) = Ok tt
  <-> all results = true.
Proof.
  rewrite ConjunctionRequirement_validate_results.
  destruct (all results); split; intros H; try reflexivity; discriminate.
Qed.

(** X1: the entries of the child results are tested for their truth
    value, whatever their type. Given child results, a disjunction returns
    exactly when at least one entry is true in that sense, and raises the
    error of line 112 when every entry is false ([None], [0], the empty
    string and the empty list count as false). *)
Theorem Disjunction_validate_iff_some_truthy
    (node : SchemaNode) (requirements : list requirement)
    (value : pyval) (context : Context) (results : list pyval) :
  (validate (DisjunctionRequirement node requirements) value context (Some results)
   = Ok tt
   <-> exists r, In r results /\ truthy r = true)
  /\ ((forall r, In r results -> truthy r = false) ->
      validate (DisjunctionRequirement node requirements) value context (Some results)
      = Raised NoValidChild).
Proof.
  cbn [validate]. split.
  - rewrite Disjunction_ok_iff_any. apply any_true.
  - intros H. rewrite DisjunctionRequirement_validate_results.
    destruct (any results) eqn:E; [| reflexivity].
    apply any_true in E as (r & Hin & Hr). rewrite (H r Hin) in Hr. discriminate.
Qed.

(** X2: given child results, a conjunction returns exactly when every
    entry is true as a truth value, and raises the error of line 128 as
    soon as one entry is false in that sense, a [None] or a [0] as well
    as a [False]. *)
Theorem Conjunction_validate_iff_all_truthy
    (node : SchemaNode) (requirements : list requirement)
    (value : pyval) (context : Context) (results : list pyval) :
  (validate (ConjunctionRequirement node requirements) value context (Some results)
   = Ok tt
   <-> forall r, In r results -> truthy r = true)
  /\ ((exists r, In r results /\ truthy r = false) ->
      validate (ConjunctionRequirement node requirements) value context (Some results)
      = Raised AnyChildInvalid).
Proof.
  cbn [validate]. split.
  - rewrite Conjunction_ok_iff_all. apply all_true.
  - intros (r & Hin & Hr). rewrite ConjunctionRequirement_validate_results.
    destruct (all results) eqn:E; [| reflexivity].
    rewrite all_true in E. rewrite (E r Hin) in Hr. discriminate.
Qed.

(** X3: child results put end to end. A conjunction accepts the
    concatenation of two sequences exactly when it accepts both, a
    disjunction exactly when it accepts one of them. *)
Theorem combinators_on_concatenation
    (node : SchemaNode) (requirements : list requirement)
    (value : pyval) (context : Context) (left right : list pyval) :
  (validate (ConjunctionRequirement node requirements) value context
     (Some (left ++ right)%list) = Ok tt
   <-> validate (ConjunctionRequirement node requirements) value context (Some left)
       = Ok tt
       /\ validate (ConjunctionRequirement node requirements) value context (Some right)
          = Ok tt)
  /\ (validate (DisjunctionRequirement node requirements) value context
        (Some (left ++ right)%list) = Ok tt
      <-> validate (DisjunctionRequirement node requirements) value context (Some left)
          = Ok tt
          \/ validate (DisjunctionRequirement node requirements) value context (Some right)
             = Ok tt).
Proof.
  cbn [validate]. rewrite !Conjunction_ok_iff_all, !Disjunction_ok_iff_any.
  unfold all, any. rewrite forallb_app, existsb_app.
  split; [apply andb_true_iff | apply orb_true_iff].
Qed.

(** X4: on the same child results, not empty, a disjunction returns
    whenever a conjunction does. *)
Theorem Conjunction_ok_implies_Disjunction_ok
    (node node' : SchemaNode) (requirements requirements' : list requirement)
    (value value' : pyval) (context context' : Context) (results : list pyval) :
  results <> [] ->
  validate (ConjunctionRequirement node requirements) value context (Some results)
  = Ok tt ->
  validate (DisjunctionRequirement node' requirements') value' context' (Some results)
  = Ok tt.
Proof.
  cbn [validate]. rewrite Conjunction_ok_iff_all, Disjunction_ok_iff_any.
  intros Hne Hall. destruct results as [| r results]; [congruence |].
  unfold all, any in *. simpl in *.
  apply andb_true_iff in Hall as [-> _]. reflexivity.
Qed.

Lemma Conjunction_ok_implies_Disjunction_ok_witness :
  [VBool true; VInt 7] <> []
  /\ validate (ConjunctionRequirement (node_named "both" false) [depth; mode])
       VNone two_layers (Some [VBool true; VInt 7]) = Ok tt
  /\ validate (DisjunctionRequirement (node_named "either" false) [depth; mode])
       VNone two_layers (Some [VBool true; VInt 7]) = Ok tt.
Proof.
  split; [discriminate |]. split; [reflexivity |].
  apply (Conjunction_ok_implies_Disjunction_ok
           (node_named "both" false) (node_named "either" false)
           [depth; mode] [depth; mode] VNone VNone two_layers two_layers
           [VBool true; VInt 7]); [discriminate | reflexivity].
Defined.

(** ** List requirements: when [validate] returns *)


(** X6: the empty list is accepted exactly when [min_elements <= 0 <=
    max_elements], and is refused with ArityViolation otherwise, whatever
    the element requirement. *)
Theorem ListRequirement_validate_empty
    (node : SchemaNode) (element_type : requirement)
    (min_elements max_elements : Z)
    (context : Context) (valid_children : option (list pyval)) :
  (validate (ListRequirement node element_type min_elements max_elements)
     (VList []) context valid_children = Ok tt
   <-> min_elements <= 0 <= max_elements)
  /\ (0 < min_elements \/ max_elements < 0 ->
      validate (ListRequirement node element_type min_elements max_elements)
        (VList []) context valid_children = Raised ArityViolation).
Proof.
  rewrite validate_list. cbn [comprehension bind all forallb negb].
  change (len []) with 0. split.
  - rewrite <- bounds_check.
    destruct ((min_elements <=? 0) && (0 <=? max_elements)); simpl;
      split; intros H; try reflexivity; discriminate.
  - intros H. apply bounds_check_false in H. rewrite H. reflexivity.
Qed.

(** X7: a list whose length is outside the bounds is never handed to the
    element requirement. With every element of the declared kind,
    [validate] raises ElementInvalid when an element has a false truth
    value and ArityViolation when none has, also when elements would
    fail the element requirement. *)
Theorem ListRequirement_out_of_bounds
    (node : SchemaNode) (element_type : requirement)
    (min_elements max_elements : Z) (items : list pyval)
    (context : Context) (valid_children : option (list pyval)) :
  len items < min_elements \/ max_elements < len items ->
  (forall element, In element items -> of_declared_kind element element_type) ->
  validate (ListRequirement node element_type min_elements max_elements)
    (VList items) context valid_children
  = if all items then Raised ArityViolation else Raised ElementInvalid.
Proof.
  intros H Hkind. apply bounds_check_false in H.
  rewrite (validate_list_checked _ _ _ _ _ _ _ Hkind), H.
  now destruct (all items).
Qed.

Lemma ListRequirement_out_of_bounds_witness :
  (len [VStr "slow"; VStr "slower"] < 0 \/ 1 < len [VStr "slow"; VStr "slower"])
  /\ (forall element, In element [VStr "slow"; VStr "slower"] ->
      of_declared_kind element mode)
  /\ validate mode (VStr "slow") two_layers None = Raised NotInChoiceSet
  /\ validate modes (VList [VStr "slow"; VStr "slower"]) two_layers None
     = Raised ArityViolation.
Proof.
  assert (len [VStr "slow"; VStr "slower"] < 0 \/ 1 < len [VStr "slow"; VStr "slower"])
    as H by (right; reflexivity).
  assert (forall element, In element [VStr "slow"; VStr "slower"] ->
                          of_declared_kind element mode) as Hkind.
  { intros element [<- | [<- | []]] kind [= <-]; reflexivity. }
  split; [exact H |]. split; [exact Hkind |]. split; [reflexivity |].
  exact (ListRequirement_out_of_bounds (node_named "modes" false) mode 0 1
           [VStr "slow"; VStr "slower"] two_layers None H Hkind).
Defined.

(** X8: the constructor does not compare the bounds, and a list
    requirement with [max_elements < min_elements] accepts no list at
    all: every list is refused, with ArityViolation unless the checks of
    lines 91-92 fail first, with ElementInvalid or with the type
    mismatch of an element that is not of the declared kind. *)
Theorem ListRequirement_inverted_bounds_accept_nothing
    (node : SchemaNode) (element_type : requirement)
    (min_elements max_elements : Z) (items : list pyval)
    (context : Context) (valid_children : option (list pyval)) :
  max_elements < min_elements ->
  let outcome :=
    validate (ListRequirement node element_type min_elements max_elements)
      (VList items) context valid_children in
  outcome = Raised ArityViolation
  \/ outcome = Raised ElementInvalid
  \/ exists element kind,
       In element items /\ declared_kind element_type = Some kind
       /\ type_of element <> kind
       /\ outcome = Raised (TypeMismatch_check kind element).
Proof.
  intros H outcome. subst outcome. rewrite validate_list.
  destruct (comprehension_type_check element_type items)
    as [[_ ->] | (element & kind & Hin & Hd & Hne & ->)]; cbn [bind].
  - assert ((min_elements <=? len items) && (len items <=? max_elements) = false) as ->.
    { apply bounds_check_false. lia. }
    destruct (all items); simpl; [now left | now right; left].
  - right; right. now exists element, kind.
Qed.

Lemma ListRequirement_inverted_bounds_accept_nothing_witness :
  2 < 5
  /\ (validate inverted (VList [VInt 1; VInt 2; VInt 3]) two_layers None
      = Raised ArityViolation
      \/ validate inverted (VList [VInt 1; VInt 2; VInt 3]) two_layers None
         = Raised ElementInvalid
      \/ exists element kind,
           In element [VInt 1; VInt 2; VInt 3] /\ declared_kind depth = Some kind
           /\ type_of element <> kind
           /\ validate inverted (VList [VInt 1; VInt 2; VInt 3]) two_layers None
              = Raised (TypeMismatch_check kind element)).
Proof.
  split; [reflexivity |].
  exact (ListRequirement_inverted_bounds_accept_nothing
           (node_named "depths" false) depth 5 2 [VInt 1; VInt 2; VInt 3]
           two_layers None eq_refl).
Defined.

(** X9: with every element of the declared kind and of a true truth
    value, and the length inside the bounds, the exception that leaves
    [validate] is the one raised by the element requirement on the first
    element it refuses; the elements after it are not looked at. *)
Theorem ListRequirement_first_failure
    (node : SchemaNode) (element_type : requirement)
    (min_elements max_elements : Z) (before after : list pyval)
    (element : pyval) (e : exn)
    (context : Context) (valid_children : option (list pyval)) :
  (forall x, In x (before ++ element :: after)%list ->
             of_declared_kind x element_type /\ truthy x = true) ->
  min_elements <= len (before ++ element :: after)%list <= max_elements ->
  (forall x, In x before -> validate element_type x context None = Ok tt) ->
  validate element_type element context None = Raised e ->
  validate (ListRequirement node element_type min_elements max_elements)
    (VList (before ++ element :: after)%list) context valid_children
  = Raised e.
Proof.
  intros Hk Hb Hbefore He.
  rewrite validate_list_checked by (intros x Hx; apply (Hk x Hx)).
  assert (all (before ++ element :: after)%list = true) as ->.
  { apply all_truthy. intros x Hx. apply (Hk x Hx). }
  apply bounds_check in Hb. rewrite Hb. cbn [negb].
  now apply for_each_first_failure.
Qed.

Lemma ListRequirement_first_failure_witness :
  (forall x, In x ([VStr "fast"] ++ VStr "slow" :: [VStr "full"])%list ->
             of_declared_kind x mode /\ truthy x = true)
  /\ validate
       (ListRequirement (node_named "modes" false) mode 0 3)
       (VList ([VStr "fast"] ++ VStr "slow" :: [VStr "full"])%list) two_layers None
     = Raised NotInChoiceSet.
Proof.
  assert (forall x, In x ([VStr "fast"] ++ VStr "slow" :: [VStr "full"])%list ->
                    of_declared_kind x mode /\ truthy x = true) as Hk.
  { intros x [<- | [<- | [<- | []]]]; (split; [intros kind [= <-] |]); reflexivity. }
  split; [exact Hk |].
  apply (ListRequirement_first_failure (node_named "modes" false) mode 0 3
           [VStr "fast"] [VStr "full"] (VStr "slow") NotInChoiceSet
           two_layers None Hk).
  - split; discriminate.
  - intros x [<- | []]. reflexivity.
  - reflexivity.
Defined.

(** X10: line 96 hands the element requirement no child results, so a
    list requirement whose element requirement is a combinator accepts
    no list with an element in it: such a list is refused with
    ElementInvalid, ArityViolation or the MissingChildResults of the
    combinator. *)
Theorem ListRequirement_of_combinators_rejects_nonempty
    (node : SchemaNode) (element_type : requirement)
    (min_elements max_elements : Z) (items : list pyval)
    (context : Context) (valid_children : option (list pyval)) :
  is_combinator element_type = true ->
  items <> [] ->
  let outcome :=
    validate (ListRequirement node element_type min_elements max_elements)
      (VList items) context valid_children in
  outcome = Raised ElementInvalid
  \/ outcome = Raised ArityViolation
  \/ outcome = Raised MissingChildResults_disjunction
  \/ outcome = Raised MissingChildResults_conjunction.
Proof.
  intros Hc Hne outcome. subst outcome.
  rewrite validate_list_checked.
  - destruct (all items); simpl; [| now left].
    destruct ((min_elements <=? len items) && (len items <=? max_elements)); simpl;
      [| now right; left].
    destruct items as [| x items]; [congruence |].
    destruct element_type; try discriminate; simpl.
    + right; right; left. reflexivity.
    + right; right; right. reflexivity.
  - intros element _ kind Hd. destruct element_type; discriminate.
Qed.

Lemma ListRequirement_of_combinators_rejects_nonempty_witness :
  validate alternatives (VList []) two_layers None = Ok tt
  /\ (validate alternatives (VList [VInt 3]) two_layers None = Raised ElementInvalid
      \/ validate alternatives (VList [VInt 3]) two_layers None = Raised ArityViolation
      \/ validate alternatives (VList [VInt 3]) two_layers None
         = Raised MissingChildResults_disjunction
      \/ validate alternatives (VList [VInt 3]) two_layers None
         = Raised MissingChildResults_conjunction).
Proof.
  split; [reflexivity |].
  apply (ListRequirement_of_combinators_rejects_nonempty
           (node_named "alternatives" false)
           (DisjunctionRequirement (node_named "either" false) [depth; mode])
           0 3 [VInt 3] two_layers None); [reflexivity | discriminate].
Defined.

Lemma scalar_declared_kind (element_type : requirement) (t : pytype) :
  instance_type element_type = Some t -> declared_kind element_type = Some t.
Proof. destruct element_type; simpl; try discriminate; now intros [= <-]. Qed.

Lemma scalar_validate_ok (element_type : requirement) (t : pytype)
    (element : pyval) (context : Context) (valid_children : option (list pyval)) :
  instance_type element_type = Some t ->
  validate element_type element context valid_children = Ok tt
  <-> isinstance element t = true.
Proof.
  destruct element_type; simpl; try discriminate; intros [= <-];
    apply InstanceRequirement_validate_ok.
Qed.

(** X11: a list of scalars. With a scalar requirement of instance type
    [t] as the element requirement, a list within the bounds whose
    elements are all of type [t] and of a true truth value is accepted,
    and no other list is: an accepted list is within the bounds and all
    its elements are instances of [t] with a true truth value. A list of
    integers with a [0] in it, or a list of strings with an empty one,
    is refused. *)
Theorem ListRequirement_of_scalars
    (node : SchemaNode) (element_type : requirement) (t : pytype)
    (min_elements max_elements : Z) (items : list pyval)
    (context : Context) (valid_children : option (list pyval)) :
  instance_type element_type = Some t ->
  let outcome :=
    validate (ListRequirement node element_type min_elements max_elements)
      (VList items) context valid_children in
  ((forall element, In element items ->
      type_of element = t /\ truthy element = true)
   /\ min_elements <= len items <= max_elements ->
   outcome = Ok tt)
  /\ (outcome = Ok tt ->
      (forall element, In element items ->
         isinstance element t = true /\ truthy element = true)
      /\ min_elements <= len items <= max_elements)
  /\ ((exists element, In element items /\ truthy element = false) ->
      exists e, outcome = Raised e).
Proof.
  intros Ht outcome. subst outcome.
  pose proof (scalar_declared_kind _ _ Ht) as Hd.
  split; [| split].
  - intros [Hall Hb].
    assert (forall element, In element items -> of_declared_kind element element_type)
      as Hkind.
    { intros element Hin kind Hk. rewrite Hd in Hk. injection Hk as <-.
      apply (Hall element Hin). }
    rewrite (validate_list_checked _ _ _ _ _ _ _ Hkind).
    assert (all items = true) as ->.
    { apply all_truthy. intros element Hin. apply (Hall element Hin). }
    apply bounds_check in Hb. rewrite Hb. cbn [negb].
    apply for_each_ok. intros element Hin.
    apply (proj2 (scalar_validate_ok element_type t element context None Ht)).
    apply isinstance_type_of. apply (Hall element Hin).
  - rewrite validate_list.
    destruct (comprehension_type_check element_type items)
      as [[_ ->] | (element & kind & Hin & _ & _ & ->)]; cbn [bind];
      [| discriminate].
    destruct (all items) eqn:Hall; cbn [negb]; [| discriminate].
    destruct ((min_elements <=? len items) && (len items <=? max_elements))
      eqn:Hb; cbn [negb]; [| discriminate].
    intros Hf. rewrite for_each_ok in Hf. split; [| now apply bounds_check].
    intros element Hin. split.
    + apply (proj1 (scalar_validate_ok element_type t element context None Ht)).
      now apply Hf.
    + now apply (proj1 (all_truthy items) Hall).
  - intros Hfalse. apply all_false in Hfalse. rewrite validate_list.
    destruct (comprehension_type_check element_type items)
      as [[_ ->] | (element & kind & Hin & _ & _ & ->)]; cbn [bind].
    + rewrite Hfalse. now eexists.
    + now eexists.
Qed.

Lemma ListRequirement_of_scalars_witness :
  instance_type depth = Some Tint
  /\ validate depths (VList [VInt 4; VInt 7]) two_layers None = Ok tt
  /\ exists e, validate depths (VList [VInt 4; VInt 0]) two_layers None = Raised e.
Proof.
  split; [reflexivity |]. split.
  - apply (proj1 (ListRequirement_of_scalars (node_named "depths" false) depth Tint
                    1 3 [VInt 4; VInt 7] two_layers None eq_refl)).
    split.
    + intros element [<- | [<- | []]]; split; reflexivity.
    + split; discriminate.
  - apply (proj2 (proj2 (ListRequirement_of_scalars (node_named "depths" false)
                           depth Tint 1 3 [VInt 4; VInt 0] two_layers None eq_refl))).
    exists (VInt 0). split; [right; left; reflexivity | reflexivity].
Defined.

(** ** What [validate] reads *)

(** X12: the context is read at line 59 only. The outcome of [validate]
    is the same in any two contexts unless the requirement is a layer
    requirement or a list requirement that validates its elements with
    one. *)
Theorem validate_context_irrelevant
    (self : requirement) (value : pyval) (context context' : Context)
    (valid_children : option (list pyval)) :
  consults_context self = false ->
  validate self value context valid_children
  = validate self value context' valid_children.
Proof.
  revert value valid_children.
  induction self as [| | | | | node element_type IH lo hi | |];
    intros value valid_children Hc; try reflexivity; try discriminate.
  cbn [validate]. destruct (_type_check value Tlist); [| reflexivity].
  cbn [bind]. destruct value; try reflexivity.
  destruct (comprehension _ items) as [checked | e]; [| reflexivity].
  cbn [bind]. destruct (negb (all checked)); [reflexivity |].
  destruct (negb _); [reflexivity |].
  apply for_each_ext. intros x _. apply IH. exact Hc.
Qed.

Lemma validate_context_irrelevant_witness :
  consults_context modes = false
  /\ validate modes (VList [VStr "full"]) two_layers None
     = validate modes (VList [VStr "full"]) {| memory := ∅ |} None.
Proof.
  split; [reflexivity |].
  apply (validate_context_irrelevant modes (VList [VStr "full"]) two_layers
           {| memory := ∅ |} None).
  reflexivity.
Defined.

(** ** Choice requirements *)

Lemma py_eq_str (v : pyval) (s : string) :
  py_eq v (VStr s) = true <-> v = VStr s.
Proof.
  destruct v; simpl; try (split; [discriminate | intros [=]]).
  rewrite String.eqb_eq. split; [now intros -> | now intros [= ->]].
Qed.

Lemma py_in_strings (value : pyval) (choices : list pyval) :
  (forall choice, In choice choices -> isinstance choice Tstr = true) ->
  py_in value choices = true <-> exists s, value = VStr s /\ In (VStr s) choices.
Proof.
  intros Hstr. unfold py_in. rewrite existsb_exists. split.
  - intros (c & Hin & Heq).
    destruct (proj1 (isinstance_str c) (Hstr c Hin)) as [s ->].
    apply py_eq_str in Heq. now exists s.
  - intros (s & -> & Hin). exists (VStr s). split; [exact Hin |].
    now apply py_eq_str.
Qed.

(** X13: the constructor and [validate] together, on the values of the
    builtin types ([None], booleans, integers, strings and lists). When
    the test of line 69 lets the list of choices through, [validate]
    returns on such a value exactly when it is a string that is in the
    list, and raises the error of line 76 when it is not a string. *)
Theorem ChoiceRequirement_validate_iff_member
    (node : SchemaNode) (choices : list pyval) (value : pyval)
    (context : Context) (valid_children : option (list pyval)) :
  not_a_list_of_strings (VList choices) = false ->
  is_ref value = false ->
  (validate (ChoiceRequirement node choices) value context valid_children = Ok tt
   <-> exists s, value = VStr s /\ In (VStr s) choices)
  /\ (isinstance value Tstr = false ->
      validate (ChoiceRequirement node choices) value context valid_children
      = Raised NotInChoiceSet).
Proof.
  intros H _.
  pose proof (proj1 (not_a_list_of_strings_false choices) H) as Hstr.
  cbn [validate]. unfold ChoiceRequirement_validate.
  pose proof (py_in_strings value choices Hstr) as Hin.
  destruct (py_in value choices); simpl.
  - split.
    + split; [intros _; now apply Hin | reflexivity].
    + intros Hv. destruct (proj1 Hin eq_refl) as (s & -> & _). discriminate.
  - split; [| reflexivity].
    split; [discriminate |]. intros Hs. apply Hin in Hs. discriminate.
Qed.

Lemma ChoiceRequirement_validate_iff_member_witness :
  not_a_list_of_strings (VList [VStr "fast"; VStr "full"]) = false
  /\ is_ref (VStr "full") = false
  /\ validate mode (VStr "full") two_layers None = Ok tt
  /\ validate mode (VBool true) two_layers None = Raised NotInChoiceSet.
Proof.
  split; [reflexivity |]. split; [reflexivity |].
  destruct (ChoiceRequirement_validate_iff_member (node_named "mode" false)
              [VStr "fast"; VStr "full"] (VStr "full") two_layers None
              eq_refl eq_refl)
    as [Hok _].
  destruct (ChoiceRequirement_validate_iff_member (node_named "mode" false)
              [VStr "fast"; VStr "full"] (VBool true) two_layers None
              eq_refl eq_refl)
    as [_ Hbad].
  split.
  - apply Hok. exists "full". split; [reflexivity | right; left; reflexivity].
  - apply Hbad. reflexivity.
Defined.

(** ** Scalar requirements against one another *)

(** X14: every value a boolean requirement accepts is accepted by an
    integer requirement, and a value a string requirement accepts is
    refused, with the type error of line 17, by an integer requirement
    and by a boolean requirement. *)
Theorem scalar_requirements_compared
    (node_b node_i node_s : SchemaNode) (value : pyval)
    (context : Context) (valid_children : option (list pyval)) :
  (validate (InstanceRequirement node_b) value context valid_children = Ok tt ->
   validate (IntRequirement node_i) value context valid_children = Ok tt)
  /\ (validate (StringRequirement node_s) value context valid_children = Ok tt ->
      validate (IntRequirement node_i) value context valid_children
      = Raised (TypeMismatch (name node_i) Tint)
      /\ validate (InstanceRequirement node_b) value context valid_children
         = Raised (TypeMismatch (name node_b) Tbool)).
Proof.
  cbn [validate]. rewrite !InstanceRequirement_validate_ok. split.
  - intros H. apply isinstance_bool in H as [b ->]. reflexivity.
  - intros H. apply isinstance_str in H as [s ->]. split; reflexivity.
Qed.

(** ** Layer requirements: the error message *)

Lemma or_empty_id (s : string) : or_empty s = s.
Proof.
  unfold or_empty. destruct (String.eqb s "") eqn:E; [| reflexivity].
  apply String.eqb_eq in E. now subst.
Qed.

(** X15: the message for an unregistered name. Past line 57 the value
    is a string, and [value or ""] is the value itself: the index error
    of line 60 carries the value followed by [" is not a memory layer"],
    for the empty string as for any other. *)
Theorem TranslationLayerRequirement_unresolved_message
    (layer_name : pyval) (s : string) (context : Context)
    (valid_children : option (list pyval)) :
  s ∉ memory context ->
  validate (TranslationLayerRequirement layer_name) (VStr s) context valid_children
  = Raised (IndexError (s +:+ " is not a memory layer")).
Proof.
  intros H. cbn [validate]. rewrite TranslationLayerRequirement_validate_str.
  rewrite bool_decide_eq_false_2 by exact H.
  unfold UnresolvedReference. now rewrite or_empty_id.
Qed.

Lemma TranslationLayerRequirement_unresolved_message_witness :
  ("" ∉ memory two_layers)
  /\ validate (TranslationLayerRequirement VNone) (VStr "") two_layers None
     = Raised (IndexError " is not a memory layer").
Proof.
  assert ("" ∉ memory two_layers) as H.
  { apply (bool_decide_eq_false_1 ("" ∈ memory two_layers)). reflexivity. }
  split; [exact H |].
  apply (TranslationLayerRequirement_unresolved_message VNone "" two_layers None H).
Defined.

(** ** The element requirement of a list requirement *)

(** X16: an instance of any class of the module other than
    [ListRequirement] is accepted as the element requirement of a list
    requirement: none of them derives from [ListRequirement] and all
    derive from [ConfigurationSchemaNode]. Construction returns the new
    instance, stores a reference to the element requirement as
    [element_type], and leaves the element requirement as it was. *)
Theorem ListRequirement_new_accepts_other_nodes
    (e : nat) (element : object) (max_elements min_elements : pyval)
    (args : base_args) (h : store) :
  h !! e = Some element ->
  In (ob_class element)
     [Cls.InstanceRequirement; Cls.IntRequirement; Cls.StringRequirement;
      Cls.TranslationLayerRequirement; Cls.ChoiceRequirement;
      Cls.DisjunctionRequirement; Cls.ConjunctionRequirement] ->
  let outcome := ListRequirement_new (VRef e) max_elements min_elements args h in
  fst outcome = Ok (VRef (List.length h))
  /\ attribute (snd outcome) (List.length h) "element_type" = Some (VRef e)
  /\ snd outcome !! e = Some element.
Proof.
  intros H Hcls outcome. subst outcome.
  rewrite (ListRequirement_new_ref _ _ _ _ _ _ H).
  assert (Cls.issubclass (ob_class element) Cls.ListRequirement = false
          /\ Cls.issubclass (ob_class element) Cls.ConfigurationSchemaNode = true)
    as [-> ->].
  { simpl in Hcls.
    destruct Hcls as [<- | [<- | [<- | [<- | [<- | [<- | [<- | []]]]]]]];
      split; reflexivity. }
  cbn [fst snd]. split; [reflexivity |]. split.
  - rewrite (attribute_updated _ _ _ _ _ (lookup_new h Cls.ListRequirement)).
    simpl. now simplify_map_eq.
  - rewrite list_lookup_insert_ne.
    + now apply lookup_old.
    + apply lookup_lt_Some in H. lia.
Qed.

Lemma ListRequirement_new_accepts_other_nodes_witness :
  depth_store !! 0%nat = Some (initialized_instance Cls.IntRequirement (args_named "depth"))
  /\ attribute
       (snd (ListRequirement_new (VRef 0) (VInt 3) (VInt 1) (args_named "depths")
               depth_store))
       1 "element_type" = Some (VRef 0).
Proof.
  split; [reflexivity |].
  apply (ListRequirement_new_accepts_other_nodes 0
           (initialized_instance Cls.IntRequirement (args_named "depth"))
           (VInt 3) (VInt 1) (args_named "depths") depth_store eq_refl).
  right; left; reflexivity.
Defined.
